(** * Safe update and delete plugin for PostGraphile

    A shallow embedding of [src/safe-update-and-delete-plugin.ts]:
    the input-type hook that adds the timestamp field, the builders of the
    row-locating condition, the verification query and the resolver wrapper
    that runs it before the mutation. *)

From Stdlib Require Import String Ascii List ZArith Bool Lia.
Import ListNotations.
Open Scope string_scope.
Open Scope Z_scope.
Open Scope list_scope.
Infix "+++" := String.append (at level 60, right associativity).

(** ** Values *)

Definition dq : string := String (ascii_of_nat 34) EmptyString.
Definition nl : string := String (ascii_of_nat 10) EmptyString.

(** JavaScript values as they appear in smart-comment tags and row fields. *)
Inductive jsval :=
| JUndefined
| JNull
| JBool (b : bool)
| JNum (z : Z)
| JStr (s : string).

(** JavaScript truthiness ([!!v]). *)
Definition truthy (v : jsval) : bool :=
  match v with
  | JUndefined | JNull => false
  | JBool b => b
  | JNum z => negb (Z.eqb z 0)
  | JStr s => negb (String.eqb s "")
  end.

(** GraphQL input values supplied by the client; timestamps in microseconds. *)
Inductive gvalue :=
| GUndefined
| GNull
| GInt (z : Z)
| GStr (s : string)
| GTimestamp (us : Z).

(** ** Introspection data (the host's table descriptors) *)

Record pgtype := mkPgType {
  type_id : Z;
  type_namespaceName : string;
  type_name : string
}.

Record attribute := mkAttribute {
  attr_name : string;
  attr_type : pgtype;
  attr_typeModifier : Z
}.

Record constraint := mkConstraint {
  keyAttributes : list attribute
}.

Record table := mkTable {
  tbl_name : string;
  tbl_namespace_name : string;
  tbl_type : pgtype;
  attributes : list attribute;
  primaryKeyConstraint : option constraint;
  tags : list (string * jsval)
}.

(** Property access on a JS object given as an association list;
    a missing key reads as [undefined]. *)
Fixpoint prop {V} (dflt : V) (k : string) (o : list (string * V)) : V :=
  match o with
  | [] => dflt
  | (k', v) :: o' => if String.eqb k k' then v else prop dflt k o'
  end.

(** The [scope] object of a hook; [undefined] flags are [false], absent
    introspection objects are [None]. *)
Record scope := mkScope {
  isRootMutation : bool;
  isPgUpdateMutationField : bool;
  isPgDeleteMutationField : bool;
  isPgNodeMutation : bool;
  isPgUpdateInputType : bool;
  isPgDeleteInputType : bool;
  pgFieldIntrospection : option table;
  pgIntrospection : option table;
  pgFieldConstraint : option constraint
}.

(** ** Exceptions and results *)

Inductive exn :=
| Error (msg : string)          (* new Error(msg) *)
| TypeError (msg : string)      (* property read on undefined *)
| HostError (code : Z).         (* an error raised by the database or the executor *)

Inductive result (A : Type) :=
| Ok (a : A)
| Throw (e : exn).
Arguments Ok {A} a.
Arguments Throw {A} e.

Definition rbind {A B} (r : result A) (f : A -> result B) : result B :=
  match r with
  | Ok a => f a
  | Throw e => Throw e
  end.

Declare Scope result_scope.
Notation "x <- r ;; k" := (rbind r (fun x => k))
  (at level 61, r at next level, right associativity) : result_scope.
Open Scope result_scope.

(** Reading a property of a possibly undefined object. *)
Definition deref {A} (o : option A) : result A :=
  match o with
  | Some a => Ok a
  | None => Throw (TypeError "Cannot read properties of undefined")
  end.

(** ** pg-sql2 fragments *)

Inductive sql_node :=
| Raw (text : string)
| Identifier (names : list string)
| Value (v : gvalue).

Definition fragment := list sql_node.

(** [sql.join(items, sep)] *)
Fixpoint sql_join (items : list fragment) (sep : string) : fragment :=
  match items with
  | [] => []
  | [f] => f
  | f :: rest => f ++ [Raw sep] ++ sql_join rest sep
  end.

(** Decimal rendering of a placeholder index. *)
Fixpoint digits_aux (fuel n : nat) (acc : string) : string :=
  match fuel with
  | O => acc
  | S fuel' =>
      let d := Nat.modulo n 10 in
      let acc' := String (ascii_of_nat (48 + d)) acc in
      if Nat.ltb n 10 then acc' else digits_aux fuel' (Nat.div n 10) acc'
  end.

Definition nat_to_string (n : nat) : string := digits_aux (S n) n "".

Fixpoint string_replace_dq (s : string) : string :=
  match s with
  | EmptyString => EmptyString
  | String c s' =>
      if Ascii.eqb c (ascii_of_nat 34)
      then String c (String c (string_replace_dq s'))
      else String c (string_replace_dq s')
  end.

(** An identifier is double-quoted with inner quotes doubled, parts joined by a dot. *)
Definition quote_ident (name : string) : string :=
  dq +++ string_replace_dq name +++ dq.

Fixpoint join_strings (sep : string) (xs : list string) : string :=
  match xs with
  | [] => ""
  | [x] => x
  | x :: rest => x +++ sep +++ join_strings sep rest
  end.

(** One step of [sql.compile]: text so far and the bound values. *)
Definition compile_node (acc : string * list gvalue) (n : sql_node)
  : string * list gvalue :=
  let (text, values) := acc in
  match n with
  | Raw t => (text +++ t, values)
  | Identifier names => (text +++ join_strings "." (map quote_ident names), values)
  | Value v =>
      (text +++ "$" +++ nat_to_string (S (length values)), values ++ [v])
  end.

(** [sql.compile(query)] gives [{text, values}]. *)
Definition compile (q : fragment) : string * list gvalue :=
  fold_left compile_node q ("", []).

(** The values a fragment binds, in order. *)
Definition values_of (q : fragment) : list gvalue :=
  flat_map (fun n => match n with Value v => [v] | _ => [] end) q.

(** ** SQL expressions of the verification query

    The select list of the verification query is kept as a small expression
    tree, rendered to pg-sql2 nodes by [render_expr]; its rendering is the
    text of the source's template literal. *)

Record interval_lit := mkInterval {
  iv_text : string;   (* the literal as written in the query *)
  iv_us : Z           (* its length in microseconds *)
}.

Definition five_microseconds : interval_lit := mkInterval "5 microsecond" 5.

Inductive sexpr :=
| SValue (v : gvalue)
| SCast (e : sexpr) (ty : pgtype)
| SColumn (name : string)
| SMinusInterval (e : sexpr) (iv : interval_lit)
| SPlusInterval (e : sexpr) (iv : interval_lit)
| SBetween (e lo hi : sexpr).

Fixpoint render_expr (e : sexpr) : fragment :=
  match e with
  | SValue v => [Value v]
  | SCast e ty =>
      render_expr e ++ [Raw "::"; Identifier [type_namespaceName ty; type_name ty]]
  | SColumn c => [Identifier [c]]
  | SMinusInterval e iv =>
      [Raw "("] ++ render_expr e ++ [Raw (" - '" +++ iv_text iv +++ "'::interval)")]
  | SPlusInterval e iv =>
      [Raw "("] ++ render_expr e ++ [Raw (" + '" +++ iv_text iv +++ "'::interval)")]
  | SBetween e lo hi =>
      render_expr e ++ [Raw " between "] ++ render_expr lo
        ++ [Raw (nl +++ "    and ")] ++ render_expr hi
  end.

(** Values of PostgreSQL expressions; [PNull] is SQL NULL. *)
Inductive pgval :=
| PNull
| PBool (b : bool)
| PInt (z : Z)
| PText (s : string)
| PTimestamp (us : Z).

Definition sql_row := list (string * pgval).

(** Three-valued [AND]. *)
Definition sql_and (a b : option bool) : option bool :=
  match a, b with
  | Some false, _ | _, Some false => Some false
  | Some true, Some true => Some true
  | _, _ => None
  end.

Definition ts_le (a b : pgval) : option bool :=
  match a, b with
  | PTimestamp x, PTimestamp y => Some (x <=? y)
  | _, _ => None
  end.

Definition of_sql_bool (b : option bool) : pgval :=
  match b with
  | Some b => PBool b
  | None => PNull
  end.

(** Evaluation on one row of the table: [x between a and b] is
    [x >= a and x <= b]; interval arithmetic on a NULL gives NULL. *)
Fixpoint eval_expr (row : sql_row) (e : sexpr) : pgval :=
  match e with
  | SValue v =>
      match v with
      | GTimestamp t => PTimestamp t
      | GInt z => PInt z
      | GStr s => PText s
      | GUndefined | GNull => PNull
      end
  | SCast e _ => eval_expr row e
  | SColumn c => prop PNull c row
  | SMinusInterval e iv =>
      match eval_expr row e with
      | PTimestamp t => PTimestamp (t - iv_us iv)
      | _ => PNull
      end
  | SPlusInterval e iv =>
      match eval_expr row e with
      | PTimestamp t => PTimestamp (t + iv_us iv)
      | _ => PNull
      end
  | SBetween e lo hi =>
      let x := eval_expr row e in
      of_sql_bool (sql_and (ts_le (eval_expr row lo) x) (ts_le x (eval_expr row hi)))
  end.

(** ** The [build] object *)

(** Input object of a mutation: field name to client value. *)
Definition input := list (string * gvalue).

Definition input_get (i : input) (k : string) : gvalue := prop GUndefined k i.

(** The parts of PostGraphile's [build] the plugin uses; GraphQL types are
    identified by their (schema-unique) names. *)
Record build := mkBuild {
  inflection_column : attribute -> string;
  nodeIdFieldName : string;
  pgGetGqlTypeByTypeIdAndModifier : Z -> string;
  getTypeAndIdentifiersFromNodeId : gvalue -> string * list gvalue
}.

(** [gql2pg(value, type, modifier)]: the host binds the client value as a
    query parameter cast to the column type. *)
Definition gql2pg_expr (v : gvalue) (ty : pgtype) (typeModifier : Z) : sexpr :=
  SCast (SValue v) ty.

Definition gql2pg (v : gvalue) (ty : pgtype) (typeModifier : Z) : fragment :=
  render_expr (gql2pg_expr v ty typeModifier).

(** ** Row-locating conditions *)

(** [${sql.identifier(key.name)} = ${gql2pg(value, key.type, key.typeModifier)}] *)
Definition key_equals (key : attribute) (v : gvalue) : fragment :=
  [Identifier [attr_name key]; Raw " = "]
    ++ gql2pg v (attr_type key) (attr_typeModifier key).

(** [sql.fragment`(${sql.join(parts, ") and (")})`] *)
Definition conjunction (parts : list fragment) : fragment :=
  [Raw "("] ++ sql_join parts ") and (" ++ [Raw ")"].

Definition getMutationCondition (sc : scope) (b : build) (inp : input)
  : result fragment :=
  c <- deref (pgFieldConstraint sc) ;;
  Ok (conjunction
        (map (fun key => key_equals key (input_get inp (inflection_column b key)))
             (keyAttributes c))).

Definition getNodeMutationCondition (sc : scope) (b : build) (inp : input)
  : result fragment :=
  tbl <- deref (pgFieldIntrospection sc) ;;
  let primaryKeys :=
    match primaryKeyConstraint tbl with
    | Some c => Some (keyAttributes c)
    | None => None
    end in
  let nodeId := input_get inp (nodeIdFieldName b) in
  let TableType := pgGetGqlTypeByTypeIdAndModifier b (type_id (tbl_type tbl)) in
  let '(Type', identifiers) := getTypeAndIdentifiersFromNodeId b nodeId in
  if negb (String.eqb Type' TableType) then Throw (Error "Mismatched type") else
  pks <- deref primaryKeys ;;
  if negb (Nat.eqb (length identifiers) (length pks)) then Throw (Error "Invalid ID") else
  Ok (conjunction
        (map (fun '(key, idv) => key_equals key idv) (combine pks identifiers))).

(** ** The verification query *)

(** The select list: [${lmValue} between (${col} - '5 microsecond'::interval)
    and (${col} + '5 microsecond'::interval)]. *)
Definition ok_expr (lmValue : sexpr) (col : string) : sexpr :=
  SBetween lmValue
    (SMinusInterval (SColumn col) five_microseconds)
    (SPlusInterval (SColumn col) five_microseconds).

Definition verify_query (lmValue : sexpr) (col : string) (tbl : table)
  (condition : fragment) : fragment :=
  [Raw "  select "] ++ render_expr (ok_expr lmValue col)
  ++ [Raw (" as ok" +++ nl +++ "    from ");
      Identifier [tbl_namespace_name tbl; tbl_name tbl];
      Raw (nl +++ "  where ")]
  ++ condition
  ++ [Raw (nl +++ "  for update")].

Definition mutation_condition (sc : scope) (b : build) (inp : input)
  : result fragment :=
  if isPgNodeMutation sc then getNodeMutationCondition sc b inp
  else getMutationCondition sc b inp.

Definition getVerifyTimestampSqlQuery (sc : scope) (b : build) (inp : input)
  (timestampAttribute : attribute) : result fragment :=
  condition <- mutation_condition sc b inp ;;
  let lmValue :=
    gql2pg_expr (input_get inp (inflection_column b timestampAttribute))
      (attr_type timestampAttribute) (attr_typeModifier timestampAttribute) in
  tbl <- deref (pgFieldIntrospection sc) ;;
  Ok (verify_query lmValue (attr_name timestampAttribute) tbl condition).

(** ** Effects of resolving a mutation field

    A run records what it does in a trace: the queries sent through
    [pgClient] and the calls of the underlying resolver (the mutation
    executor). *)

(** The arguments a resolver is called with: [(source, args, context, info)];
    [args] of a mutation field is [{ input }]. *)
Record call_args := mkCallArgs {
  ca_source : gvalue;
  ca_input : input;
  ca_context : Z;
  ca_info : Z
}.

Inductive event :=
| EvQuery (text : string) (values : list gvalue)
| EvResolve (a : call_args).

Definition M (A : Type) := list event -> result A * list event.

Definition mret {A} (a : A) : M A := fun tr => (Ok a, tr).

Definition mlift {A} (r : result A) : M A := fun tr => (r, tr).

Definition mbind {A B} (m : M A) (f : A -> M B) : M B :=
  fun tr =>
    match m tr with
    | (Ok a, tr') => f a tr'
    | (Throw e, tr') => (Throw e, tr')
    end.

Declare Scope m_scope.
Notation "x <-- m ;; k" := (mbind m (fun x => k))
  (at level 61, m at next level, right associativity) : m_scope.
Open Scope m_scope.

(** A row returned by [pgClient.query]: column name to JS value. *)
Definition db_row := list (string * jsval).

(** [pgClient.query]: the database answers a compiled query with rows or fails. *)
Definition pg_client := string * list gvalue -> result (list db_row).

Definition pg_query (db : pg_client) (q : string * list gvalue) : M (list db_row) :=
  fun tr => (db q, tr ++ [EvQuery (fst q) (snd q)]).

(** The mutation executor: PostGraphile's resolver of the field. *)
Definition executor := call_args -> result gvalue.

Definition call_executor (exec : executor) (a : call_args) : M gvalue :=
  fun tr => (exec a, tr ++ [EvResolve a]).

(** The [resolver] argument that graphile-utils' [makeWrapResolversPlugin]
    hands to a wrapper: each parameter defaults to the original one, so
    calling it with no arguments ([None]) forwards the original call. *)
Definition host_resolver (exec : executor) (orig : call_args)
  (override : option call_args) : M gvalue :=
  call_executor exec (match override with Some a => a | None => orig end).

(** ** [verifyTimestamp] *)

Definition row_ok (row : db_row) : bool := truthy (prop JUndefined "ok" row).

Definition verifyTimestamp (sc : scope) (b : build) (inp : input)
  (pgClient : pg_client) (timestampAttribute : attribute) : M unit :=
  sqlCheckQuery <-- mlift (getVerifyTimestampSqlQuery sc b inp timestampAttribute) ;;
  let sqlString := compile sqlCheckQuery in
  rows <-- pg_query pgClient sqlString ;;
  if negb (forallb row_ok rows)
  then mlift (Throw (Error "Mutation blocked due to conflict."))
  else mret tt.

(** ** The opt-out tag and the applicability test *)

Definition omit (sc : scope) : result bool :=
  tbl <- deref (match pgFieldIntrospection sc with
                | Some t => Some t
                | None => pgIntrospection sc
                end) ;;
  Ok (truthy (prop JUndefined "disableSafeUpdateAndDelete" (tags tbl))).

Definition isRelevantMutation (sc : scope) : bool :=
  isRootMutation sc && (isPgUpdateMutationField sc || isPgDeleteMutationField sc).

Definition find_timestamp_attribute (timestampColumn : string) (attrs : list attribute)
  : option attribute :=
  find (fun a => String.eqb (attr_name a) timestampColumn) attrs.

(** ** [makeVerifyTimestampPlugin] *)

(** The filter: [Some] scope when the field is wrapped, [None] otherwise. *)
Definition verify_filter (sc : scope) : result (option scope) :=
  if isRelevantMutation sc then
    o <- omit sc ;;
    Ok (if o then None else Some sc)
  else Ok None.

(** The wrapper built for a wrapped field. *)
Definition verify_wrapper (timestampColumn : string) (sc : scope) (b : build)
  (resolver : option call_args -> M gvalue) (orig : call_args)
  (pgClient : pg_client) : M gvalue :=
  tbl <-- mlift (deref (pgFieldIntrospection sc)) ;;
  match find_timestamp_attribute timestampColumn (attributes tbl) with
  | Some timestampAttribute =>
      _ <-- verifyTimestamp sc b (ca_input orig) pgClient timestampAttribute ;;
      resolver None
  | None => resolver None
  end.

(** Resolving a mutation field under the plugin: unwrapped fields call the
    executor with the original arguments; wrapped ones go through the wrapper. *)
Definition resolve_field (timestampColumn : string) (sc : scope) (b : build)
  (exec : executor) (orig : call_args) (pgClient : pg_client) : M gvalue :=
  match verify_filter sc with
  | Throw e => mlift (Throw e)
  | Ok None => call_executor exec orig
  | Ok (Some sc') =>
      verify_wrapper timestampColumn sc' b (host_resolver exec orig) orig pgClient
  end.

(** ** [makeAddTimestampFieldPlugin] *)

Inductive gqltype :=
| GNamedType (name : string)
| GNonNull (t : gqltype).

Record field_spec := mkFieldSpec {
  fs_type : gqltype;
  fs_description : string
}.

Definition fields := list (string * field_spec).

(** graphile-build's [build.extend]: adding a key that is already present is
    refused. *)
Definition extend (base : fields) (k : string) (v : field_spec) : result fields :=
  if existsb (fun kv => String.eqb (fst kv) k) base
  then Throw (Error ("Overwriting key '" +++ k +++ "' is not allowed!"))
  else Ok (base ++ [(k, v)]).

Definition timestamp_description (timestampField mode : string) : string :=
  "The " +++ dq +++ timestampField +++ dq
    +++ " value of the existing row to be " +++ mode +++ "d".

Definition AddTimestampFieldHook (timestampColumn : string) (b : build)
  (sc : scope) (flds : fields) : result fields :=
  pgi <- deref (pgIntrospection sc) ;;
  let attrs := attributes pgi in
  let mode :=
    if isPgUpdateInputType sc then Some "update"
    else if isPgDeleteInputType sc then Some "delete"
    else None in
  match mode with
  | None => Ok flds
  | Some mode =>
      o <- omit sc ;;
      if o then Ok flds else
      match find_timestamp_attribute timestampColumn attrs with
      | None => Ok flds
      | Some timestampAttribute =>
          let DateTimeType := GNamedType "Datetime" in
          let timestampField := inflection_column b timestampAttribute in
          extend flds timestampField
            (mkFieldSpec (GNonNull DateTimeType)
               (timestamp_description timestampField mode))
      end
  end.

(** ** Sample schema used by the concrete runs below *)

Definition int4 : pgtype := mkPgType 23 "pg_catalog" "int4".
Definition timestamptz : pgtype := mkPgType 1184 "pg_catalog" "timestamptz".
Definition post_type : pgtype := mkPgType 90001 "app" "post".

Definition id_attr : attribute := mkAttribute "id" int4 (-1).
Definition updated_at_attr : attribute := mkAttribute "updated_at" timestamptz (-1).

Definition post_table : table :=
  mkTable "post" "app" post_type [id_attr; updated_at_attr]
    (Some (mkConstraint [id_attr])) [].

Definition post_table_opted_out : table :=
  mkTable "post" "app" post_type [id_attr; updated_at_attr]
    (Some (mkConstraint [id_attr])) [("disableSafeUpdateAndDelete", JBool true)].

Definition post_table_no_pk : table :=
  mkTable "post" "app" post_type [id_attr; updated_at_attr] None [].

Definition sample_build : build :=
  mkBuild
    (fun a => if String.eqb (attr_name a) "updated_at" then "updatedAt" else attr_name a)
    "nodeId"
    (fun tid => if Z.eqb tid 90001 then "Post" else "Unknown")
    (fun v => match v with
              | GStr s =>
                  if String.eqb s "post:1" then ("Post", [GInt 1])
                  else if String.eqb s "user:1" then ("User", [GInt 1])
                  else if String.eqb s "user:1:2" then ("User", [GInt 1; GInt 2])
                  else if String.eqb s "post:1:2" then ("Post", [GInt 1; GInt 2])
                  else ("", [])
              | _ => ("", [])
              end).

Definition update_by_key_scope (t : table) : scope :=
  mkScope true true false false false false (Some t) None (Some (mkConstraint [id_attr])).

Definition update_by_node_scope (t : table) : scope :=
  mkScope true true false true false false (Some t) None None.

Definition update_input_scope (t : table) : scope :=
  mkScope false false false false true false None (Some t) None.

Definition sample_args (inp : input) : call_args := mkCallArgs GUndefined inp 0 0.

Definition db_answering (rows : list db_row) : pg_client := fun _ => Ok rows.

Definition sample_exec : executor := fun _ => Ok (GInt 42).

(** ** Answers of the database to the verification query

    PostgreSQL answers the verification query with one row per stored row the
    condition matches, locking each, whose [ok] column is the select list
    evaluated on that stored row; [pg] hands booleans and NULL to JavaScript
    as [true], [false] and [null]. *)

Definition pg_to_js (v : pgval) : jsval :=
  match v with
  | PNull => JNull
  | PBool b => JBool b
  | PInt z => JNum z
  | PText s => JStr s
  | PTimestamp t => JNum t
  end.

Definition locked_read_rows (lmValue : sexpr) (col : string) (matched : list sql_row)
  : list db_row :=
  map (fun r => [("ok", pg_to_js (eval_expr r (ok_expr lmValue col)))]) matched.

(** Whether a stored row's version column holds a timestamp within 5
    microseconds of [v]. *)
Definition row_within (v : Z) (col : string) (r : sql_row) : bool :=
  match prop PNull col r with
  | PTimestamp s => (s - 5 <=? v) && (v <=? s + 5)
  | _ => false
  end.

(** ** General lemmas *)

Lemma compile_app_raw (q : fragment) (s : string) :
  fst (compile (q ++ [Raw s])) = fst (compile q) +++ s.
Proof.
  unfold compile. rewrite fold_left_app. simpl.
  destruct (fold_left compile_node q ("", [])). reflexivity.
Qed.

Lemma verifyTimestamp_unfold sc b inp db ta tr :
  verifyTimestamp sc b inp db ta tr =
  match getVerifyTimestampSqlQuery sc b inp ta with
  | Throw e => (Throw e, tr)
  | Ok q =>
      (match db (compile q) with
       | Throw e => Throw e
       | Ok rows =>
           if forallb row_ok rows then Ok tt
           else Throw (Error "Mutation blocked due to conflict.")
       end,
       tr ++ [EvQuery (fst (compile q)) (snd (compile q))])
  end.
Proof.
  unfold verifyTimestamp, mbind, mlift, pg_query, mret.
  destruct (getVerifyTimestampSqlQuery sc b inp ta) as [q|e]; [|reflexivity].
  destruct (db (compile q)) as [rows|e]; [|reflexivity].
  destruct (forallb row_ok rows); reflexivity.
Qed.

Lemma resolve_field_wrapped col sc b exec orig db tr :
  isRelevantMutation sc = true ->
  omit sc = Ok false ->
  resolve_field col sc b exec orig db tr
  = verify_wrapper col sc b (host_resolver exec orig) orig db tr.
Proof.
  intros Hrel Homit. unfold resolve_field, verify_filter.
  rewrite Hrel, Homit. reflexivity.
Qed.

Lemma verify_wrapper_checked col sc b res orig db tr t ta :
  pgFieldIntrospection sc = Some t ->
  find_timestamp_attribute col (attributes t) = Some ta ->
  verify_wrapper col sc b res orig db tr
  = mbind (verifyTimestamp sc b (ca_input orig) db ta) (fun _ => res None) tr.
Proof.
  intros Ht Hta. unfold verify_wrapper, mbind at 1, mlift. rewrite Ht. simpl.
  rewrite Hta. reflexivity.
Qed.

Lemma verify_wrapper_unchecked col sc b res orig db tr t :
  pgFieldIntrospection sc = Some t ->
  find_timestamp_attribute col (attributes t) = None ->
  verify_wrapper col sc b res orig db tr = res None tr.
Proof.
  intros Ht Hta. unfold verify_wrapper, mbind, mlift. rewrite Ht. simpl.
  rewrite Hta. reflexivity.
Qed.

(** A wrapped call whose verification passes runs the executor once on the
    original arguments, after the one verification query. *)
Lemma resolve_field_verified col sc b exec orig db tr t ta q rows :
  isRelevantMutation sc = true ->
  omit sc = Ok false ->
  pgFieldIntrospection sc = Some t ->
  find_timestamp_attribute col (attributes t) = Some ta ->
  getVerifyTimestampSqlQuery sc b (ca_input orig) ta = Ok q ->
  db (compile q) = Ok rows ->
  forallb row_ok rows = true ->
  resolve_field col sc b exec orig db tr
  = (exec orig,
     tr ++ [EvQuery (fst (compile q)) (snd (compile q)); EvResolve orig]).
Proof.
  intros Hrel Homit Ht Hta Hq Hdb Hok.
  rewrite resolve_field_wrapped by assumption.
  rewrite (verify_wrapper_checked _ _ _ _ _ _ _ t ta) by assumption.
  unfold mbind at 1. rewrite verifyTimestamp_unfold, Hq, Hdb, Hok.
  unfold host_resolver, call_executor. rewrite <- app_assoc. reflexivity.
Qed.

(** ** Concrete runs *)

Example sample_update_verified :
  resolve_field "updated_at" (update_by_key_scope post_table) sample_build sample_exec
    (sample_args [("id", GInt 1); ("updatedAt", GTimestamp 100)])
    (db_answering [[("ok", JBool true)]]) [] =
  (Ok (GInt 42),
   [EvQuery (fst (compile (match getVerifyTimestampSqlQuery (update_by_key_scope post_table)
                  sample_build [("id", GInt 1); ("updatedAt", GTimestamp 100)]
                  updated_at_attr with Ok q => q | Throw _ => [] end)))
            [GTimestamp 100; GInt 1];
    EvResolve (sample_args [("id", GInt 1); ("updatedAt", GTimestamp 100)])]).
Proof. vm_compute. reflexivity. Qed.

Example sample_update_blocked :
  fst (resolve_field "updated_at" (update_by_key_scope post_table) sample_build sample_exec
    (sample_args [("id", GInt 1); ("updatedAt", GTimestamp 100)])
    (db_answering [[("ok", JBool false)]]) [])
  = Throw (Error "Mutation blocked due to conflict.").
Proof. vm_compute. reflexivity. Qed.

(** The select list evaluated on a stored row whose version column holds [s],
    with the client value [t]. *)
Lemma eval_ok_expr row col t s ty tm :
  prop PNull col row = PTimestamp s ->
  eval_expr row (ok_expr (gql2pg_expr (GTimestamp t) ty tm) col)
  = PBool ((s - 5 <=? t) && (t <=? s + 5)).
Proof.
  intros Hs. cbn [ok_expr gql2pg_expr eval_expr]. rewrite Hs. cbn.
  destruct (s - 5 <=? t), (t <=? s + 5); reflexivity.
Qed.

Lemma getVerifyTimestampSqlQuery_shape sc b inp ta q :
  getVerifyTimestampSqlQuery sc b inp ta = Ok q ->
  exists cond tbl,
    mutation_condition sc b inp = Ok cond /\
    pgFieldIntrospection sc = Some tbl /\
    q = verify_query
          (gql2pg_expr (input_get inp (inflection_column b ta))
             (attr_type ta) (attr_typeModifier ta))
          (attr_name ta) tbl cond.
Proof.
  unfold getVerifyTimestampSqlQuery.
  destruct (mutation_condition sc b inp) as [cond|e]; simpl; [|discriminate].
  destruct (pgFieldIntrospection sc) as [tbl|]; simpl; [|discriminate].
  intros H. injection H as <-. eauto.
Qed.

Lemma getVerifyTimestampSqlQuery_condition_error sc b inp ta e :
  mutation_condition sc b inp = Throw e ->
  getVerifyTimestampSqlQuery sc b inp ta = Throw e.
Proof.
  intros H. unfold getVerifyTimestampSqlQuery. rewrite H. reflexivity.
Qed.

(** A wrapped call whose condition cannot be built fails with that error,
    leaving the trace untouched: no query, no executor call. *)
Lemma resolve_field_condition_error col sc b exec orig db tr t ta e :
  isRelevantMutation sc = true ->
  omit sc = Ok false ->
  pgFieldIntrospection sc = Some t ->
  find_timestamp_attribute col (attributes t) = Some ta ->
  mutation_condition sc b (ca_input orig) = Throw e ->
  resolve_field col sc b exec orig db tr = (Throw e, tr).
Proof.
  intros Hrel Homit Ht Hta He.
  rewrite resolve_field_wrapped by assumption.
  rewrite (verify_wrapper_checked _ _ _ _ _ _ _ t ta) by assumption.
  unfold mbind. rewrite verifyTimestamp_unfold.
  rewrite getVerifyTimestampSqlQuery_condition_error with (e := e) by assumption.
  reflexivity.
Qed.

Lemma node_condition_mismatch sc b inp t Ty ids :
  pgFieldIntrospection sc = Some t ->
  getTypeAndIdentifiersFromNodeId b (input_get inp (nodeIdFieldName b)) = (Ty, ids) ->
  Ty <> pgGetGqlTypeByTypeIdAndModifier b (type_id (tbl_type t)) ->
  getNodeMutationCondition sc b inp = Throw (Error "Mismatched type").
Proof.
  intros Ht Hdec Hne. unfold getNodeMutationCondition. rewrite Ht. cbn [rbind deref].
  rewrite Hdec. apply String.eqb_neq in Hne. rewrite Hne. reflexivity.
Qed.

Lemma node_condition_arity sc b inp t c Ty ids :
  pgFieldIntrospection sc = Some t ->
  getTypeAndIdentifiersFromNodeId b (input_get inp (nodeIdFieldName b)) = (Ty, ids) ->
  Ty = pgGetGqlTypeByTypeIdAndModifier b (type_id (tbl_type t)) ->
  primaryKeyConstraint t = Some c ->
  length ids <> length (keyAttributes c) ->
  getNodeMutationCondition sc b inp = Throw (Error "Invalid ID").
Proof.
  intros Ht Hdec Heq Hpk Hlen. unfold getNodeMutationCondition. rewrite Ht.
  cbn [rbind deref]. rewrite Hdec, Hpk, <- Heq, String.eqb_refl. cbn.
  apply Nat.eqb_neq in Hlen. rewrite Hlen. reflexivity.
Qed.

Lemma node_condition_no_pk sc b inp t Ty ids :
  pgFieldIntrospection sc = Some t ->
  getTypeAndIdentifiersFromNodeId b (input_get inp (nodeIdFieldName b)) = (Ty, ids) ->
  Ty = pgGetGqlTypeByTypeIdAndModifier b (type_id (tbl_type t)) ->
  primaryKeyConstraint t = None ->
  getNodeMutationCondition sc b inp
  = Throw (TypeError "Cannot read properties of undefined").
Proof.
  intros Ht Hdec Heq Hpk. unfold getNodeMutationCondition. rewrite Ht.
  cbn [rbind deref]. rewrite Hdec, Hpk, <- Heq, String.eqb_refl. reflexivity.
Qed.

Lemma omit_field_table sc t :
  pgFieldIntrospection sc = Some t ->
  omit sc = Ok (truthy (prop JUndefined "disableSafeUpdateAndDelete" (tags t))).
Proof. intros Ht. unfold omit. rewrite Ht. reflexivity. Qed.

(** Unwrapped resolution: the executor runs once on the original arguments. *)
Lemma resolve_field_unwrapped col sc b exec orig db tr :
  verify_filter sc = Ok None ->
  resolve_field col sc b exec orig db tr = (exec orig, tr ++ [EvResolve orig]).
Proof. intros H. unfold resolve_field. rewrite H. reflexivity. Qed.

(** ** Claims *)

(** *** Missing rows *)

(** C1 (counterexample): on the sample table, an update whose condition
    matches no row gets an empty answer from the locked read; [rows.every]
    holds on it, the call succeeds and the executor runs. *)
Lemma missing_row_not_blocked :
  let orig := sample_args [("id", GInt 7); ("updatedAt", GTimestamp 100)] in
  let run := resolve_field "updated_at" (update_by_key_scope post_table) sample_build
               sample_exec orig (db_answering []) [] in
  fst run = Ok (GInt 42) /\ In (EvResolve orig) (snd run).
Proof. vm_compute. split; [reflexivity | right; left; reflexivity]. Qed.

(** C1 (amended): when the locked read returns no row (the condition matches
    no stored row), verification passes vacuously: the executor is invoked once
    with the original arguments and its result is the call's result. *)
Theorem missing_row_passes_to_executor col sc b exec orig db tr t ta q :
  isRelevantMutation sc = true ->
  omit sc = Ok false ->
  pgFieldIntrospection sc = Some t ->
  find_timestamp_attribute col (attributes t) = Some ta ->
  getVerifyTimestampSqlQuery sc b (ca_input orig) ta = Ok q ->
  db (compile q) = Ok [] ->
  resolve_field col sc b exec orig db tr
  = (exec orig,
     tr ++ [EvQuery (fst (compile q)) (snd (compile q)); EvResolve orig]).
Proof.
  intros. eapply resolve_field_verified; eauto.
Qed.

Definition sample_input_7 : input := [("id", GInt 7); ("updatedAt", GTimestamp 100)].

Definition sample_query_7 : fragment :=
  match getVerifyTimestampSqlQuery (update_by_key_scope post_table) sample_build
          sample_input_7 updated_at_attr with
  | Ok q => q
  | Throw _ => []
  end.

Lemma missing_row_passes_to_executor_witness :
  resolve_field "updated_at" (update_by_key_scope post_table) sample_build sample_exec
    (sample_args sample_input_7) (db_answering []) []
  = (sample_exec (sample_args sample_input_7),
     [] ++ [EvQuery (fst (compile sample_query_7)) (snd (compile sample_query_7));
            EvResolve (sample_args sample_input_7)]).
Proof.
  apply (missing_row_passes_to_executor "updated_at" (update_by_key_scope post_table)
           sample_build sample_exec (sample_args sample_input_7) (db_answering []) []
           post_table updated_at_attr sample_query_7);
    reflexivity.
Defined.

(** *** Conflicts *)

(** C2: on a guarded, non-opted-out table with the version column, if the
    locked read covers a stored row whose version [s] differs from the client
    value [v] by more than 5 microseconds, the call fails with
    "Mutation blocked due to conflict." after the one verification query and
    the executor is never invoked. *)
Theorem stale_version_blocked col sc b exec orig t ta q v matched r s tr :
  isRelevantMutation sc = true ->
  omit sc = Ok false ->
  pgFieldIntrospection sc = Some t ->
  find_timestamp_attribute col (attributes t) = Some ta ->
  getVerifyTimestampSqlQuery sc b (ca_input orig) ta = Ok q ->
  input_get (ca_input orig) (inflection_column b ta) = GTimestamp v ->
  In r matched ->
  prop PNull (attr_name ta) r = PTimestamp s ->
  v < s - 5 \/ s + 5 < v ->
  resolve_field col sc b exec orig
    (fun _ => Ok (locked_read_rows
                    (gql2pg_expr (GTimestamp v) (attr_type ta) (attr_typeModifier ta))
                    (attr_name ta) matched)) tr
  = (Throw (Error "Mutation blocked due to conflict."),
     tr ++ [EvQuery (fst (compile q)) (snd (compile q))]).
Proof.
  intros Hrel Homit Ht Hta Hq Hv Hin Hs Hfar.
  rewrite resolve_field_wrapped by assumption.
  rewrite (verify_wrapper_checked _ _ _ _ _ _ _ t ta) by assumption.
  unfold mbind. rewrite verifyTimestamp_unfold, Hq.
  replace (forallb row_ok _) with false; [reflexivity|].
  symmetry. apply Bool.not_true_iff_false. intros Hall.
  rewrite forallb_forall in Hall.
  assert (Hr : In [("ok", pg_to_js (eval_expr r (ok_expr
                 (gql2pg_expr (GTimestamp v) (attr_type ta) (attr_typeModifier ta))
                 (attr_name ta))))]
               (locked_read_rows (gql2pg_expr (GTimestamp v) (attr_type ta)
                                    (attr_typeModifier ta)) (attr_name ta) matched)).
  { unfold locked_read_rows. apply in_map_iff. eauto. }
  specialize (Hall _ Hr).
  rewrite (eval_ok_expr _ _ _ s) in Hall by assumption.
  unfold row_ok in Hall. simpl in Hall.
  apply andb_true_iff in Hall as [H1 H2].
  apply Z.leb_le in H1. apply Z.leb_le in H2. lia.
Qed.

Definition sample_input_100 : input := [("id", GInt 1); ("updatedAt", GTimestamp 100)].

Definition sample_query_100 : fragment :=
  match getVerifyTimestampSqlQuery (update_by_key_scope post_table) sample_build
          sample_input_100 updated_at_attr with
  | Ok q => q
  | Throw _ => []
  end.

Definition stored_row_200 : sql_row := [("id", PInt 1); ("updated_at", PTimestamp 200)].

Lemma stale_version_blocked_witness :
  resolve_field "updated_at" (update_by_key_scope post_table) sample_build sample_exec
    (sample_args sample_input_100)
    (fun _ => Ok (locked_read_rows
                    (gql2pg_expr (GTimestamp 100) timestamptz (-1))
                    "updated_at" [stored_row_200])) []
  = (Throw (Error "Mutation blocked due to conflict."),
     [] ++ [EvQuery (fst (compile sample_query_100)) (snd (compile sample_query_100))]).
Proof.
  apply (stale_version_blocked "updated_at" (update_by_key_scope post_table) sample_build
           sample_exec (sample_args sample_input_100) post_table updated_at_attr
           sample_query_100 100 [stored_row_200] stored_row_200 200 []);
    try reflexivity.
  - left. reflexivity.
  - left. lia.
Defined.

(** *** The locked read *)

(** C3: a run of [verifyTimestamp] either fails before issuing anything, or
    issues exactly one query: [select ... from <table> where <condition> for
    update], whose condition is the row-locating condition built for the call
    and whose compiled text ends with the [for update] clause; the decision is
    taken on that query's rows only. *)
Theorem verification_query_locks_rows sc b inp db ta tr r tr' :
  verifyTimestamp sc b inp db ta tr = (r, tr') ->
  (tr' = tr /\ exists e, r = Throw e) \/
  (exists cond tbl lm q,
     mutation_condition sc b inp = Ok cond /\
     pgFieldIntrospection sc = Some tbl /\
     q = ([Raw "  select "] ++ render_expr (ok_expr lm (attr_name ta))
          ++ [Raw (" as ok" +++ nl +++ "    from ");
              Identifier [tbl_namespace_name tbl; tbl_name tbl]])
         ++ [Raw (nl +++ "  where ")] ++ cond ++ [Raw (nl +++ "  for update")] /\
     tr' = tr ++ [EvQuery (fst (compile q)) (snd (compile q))] /\
     exists txt, fst (compile q) = txt +++ nl +++ "  for update").
Proof.
  rewrite verifyTimestamp_unfold.
  destruct (getVerifyTimestampSqlQuery sc b inp ta) as [q|e] eqn:Hq.
  - intros H. injection H as _ <-. right.
    destruct (getVerifyTimestampSqlQuery_shape _ _ _ _ _ Hq) as (cond & tbl & Hc & Ht & ->).
    do 4 eexists. split; [exact Hc|]. split; [exact Ht|]. split.
    + unfold verify_query. repeat rewrite <- app_assoc. reflexivity.
    + split; [reflexivity|].
      exists (fst (compile ([Raw "  select "] ++ render_expr (ok_expr
                (gql2pg_expr (input_get inp (inflection_column b ta))
                   (attr_type ta) (attr_typeModifier ta)) (attr_name ta))
               ++ [Raw (" as ok" +++ nl +++ "    from ");
                   Identifier [tbl_namespace_name tbl; tbl_name tbl];
                   Raw (nl +++ "  where ")] ++ cond))).
      rewrite <- compile_app_raw. unfold verify_query.
      repeat rewrite <- app_assoc. reflexivity.
  - intros H. injection H as <- <-. left. eauto.
Qed.

Lemma verification_query_locks_rows_witness :
  exists r tr',
    verifyTimestamp (update_by_key_scope post_table) sample_build sample_input_100
      (db_answering [[("ok", JBool true)]]) updated_at_attr [] = (r, tr') /\
    ((tr' = [] /\ exists e, r = Throw e) \/
     (exists cond tbl lm q,
        mutation_condition (update_by_key_scope post_table) sample_build
          sample_input_100 = Ok cond /\
        pgFieldIntrospection (update_by_key_scope post_table) = Some tbl /\
        q = ([Raw "  select "] ++ render_expr (ok_expr lm (attr_name updated_at_attr))
             ++ [Raw (" as ok" +++ nl +++ "    from ");
                 Identifier [tbl_namespace_name tbl; tbl_name tbl]])
            ++ [Raw (nl +++ "  where ")] ++ cond ++ [Raw (nl +++ "  for update")] /\
        tr' = [] ++ [EvQuery (fst (compile q)) (snd (compile q))] /\
        exists txt, fst (compile q) = txt +++ nl +++ "  for update")).
Proof.
  exists (fst (verifyTimestamp (update_by_key_scope post_table) sample_build
            sample_input_100 (db_answering [[("ok", JBool true)]]) updated_at_attr [])),
         (snd (verifyTimestamp (update_by_key_scope post_table) sample_build
            sample_input_100 (db_answering [[("ok", JBool true)]]) updated_at_attr [])).
  split; [apply surjective_pairing|].
  apply (verification_query_locks_rows (update_by_key_scope post_table) sample_build
           sample_input_100 (db_answering [[("ok", JBool true)]]) updated_at_attr []).
  apply surjective_pairing.
Defined.

(** *** Global-identifier mode *)

(** C4 (counterexample): on the sample table (one key column), the node
    identifier "user:1:2" decodes to the wrong type AND two key values; the
    call fails with "Mismatched type", not "Invalid ID". *)
Lemma wrong_type_and_arity_reports_type :
  let run := resolve_field "updated_at" (update_by_node_scope post_table) sample_build
               sample_exec (sample_args [("nodeId", GStr "user:1:2");
                                         ("updatedAt", GTimestamp 100)])
               (db_answering []) [] in
  fst run = Throw (Error "Mismatched type") /\ fst run <> Throw (Error "Invalid ID").
Proof. vm_compute. split; [reflexivity | discriminate]. Qed.

(** C4 (amended): in node mode, on a guarded table with the version column,
    a decoded type tag different from the table's type fails the call with
    "Mismatched type"; a matching tag whose value count differs from the
    primary-key arity fails it with "Invalid ID". Either way the trace is
    untouched: no query is issued and the executor is never invoked. *)
Theorem node_id_checked_before_query col sc b exec orig db tr t ta Ty ids :
  isRelevantMutation sc = true ->
  omit sc = Ok false ->
  isPgNodeMutation sc = true ->
  pgFieldIntrospection sc = Some t ->
  find_timestamp_attribute col (attributes t) = Some ta ->
  getTypeAndIdentifiersFromNodeId b (input_get (ca_input orig) (nodeIdFieldName b))
    = (Ty, ids) ->
  (Ty <> pgGetGqlTypeByTypeIdAndModifier b (type_id (tbl_type t)) ->
   resolve_field col sc b exec orig db tr = (Throw (Error "Mismatched type"), tr)) /\
  (forall c,
     Ty = pgGetGqlTypeByTypeIdAndModifier b (type_id (tbl_type t)) ->
     primaryKeyConstraint t = Some c ->
     length ids <> length (keyAttributes c) ->
     resolve_field col sc b exec orig db tr = (Throw (Error "Invalid ID"), tr)).
Proof.
  intros Hrel Homit Hnode Ht Hta Hdec. split.
  - intros Hne. eapply resolve_field_condition_error; eauto.
    unfold mutation_condition. rewrite Hnode.
    eapply node_condition_mismatch; eauto.
  - intros c Heq Hpk Hlen. eapply resolve_field_condition_error; eauto.
    unfold mutation_condition. rewrite Hnode.
    eapply node_condition_arity; eauto.
Qed.

Definition node_input (nodeId : string) : input :=
  [("nodeId", GStr nodeId); ("updatedAt", GTimestamp 100)].

Lemma node_id_checked_before_query_witness :
  (resolve_field "updated_at" (update_by_node_scope post_table) sample_build sample_exec
     (sample_args (node_input "user:1")) (db_answering []) []
   = (Throw (Error "Mismatched type"), [])) /\
  (resolve_field "updated_at" (update_by_node_scope post_table) sample_build sample_exec
     (sample_args (node_input "post:1:2")) (db_answering []) []
   = (Throw (Error "Invalid ID"), [])).
Proof.
  split.
  - refine (proj1 (node_id_checked_before_query "updated_at"
             (update_by_node_scope post_table) sample_build sample_exec
             (sample_args (node_input "user:1")) (db_answering []) [] post_table
             updated_at_attr "User" [GInt 1] _ _ _ _ _ _) _);
      try reflexivity.
    discriminate.
  - refine (proj2 (node_id_checked_before_query "updated_at"
             (update_by_node_scope post_table) sample_build sample_exec
             (sample_args (node_input "post:1:2")) (db_answering []) [] post_table
             updated_at_attr "Post" [GInt 1; GInt 2] _ _ _ _ _ _)
             (mkConstraint [id_attr]) _ _ _);
      try reflexivity.
    discriminate.
Defined.

(** *** Passing verification *)

(** C5: when every row of the locked read is [ok], the executor is invoked
    exactly once, with the original arguments, and its result (value or
    failure) is the call's result. *)
Theorem verified_call_forwards_once col sc b exec orig db tr t ta q rows :
  isRelevantMutation sc = true ->
  omit sc = Ok false ->
  pgFieldIntrospection sc = Some t ->
  find_timestamp_attribute col (attributes t) = Some ta ->
  getVerifyTimestampSqlQuery sc b (ca_input orig) ta = Ok q ->
  db (compile q) = Ok rows ->
  forallb row_ok rows = true ->
  resolve_field col sc b exec orig db tr
  = (exec orig,
     tr ++ [EvQuery (fst (compile q)) (snd (compile q)); EvResolve orig]).
Proof.
  intros Hrel Homit Ht Hta Hq Hdb Hok.
  rewrite resolve_field_wrapped by assumption.
  rewrite (verify_wrapper_checked _ _ _ _ _ _ _ t ta) by assumption.
  unfold mbind at 1. rewrite verifyTimestamp_unfold, Hq, Hdb, Hok.
  unfold host_resolver, call_executor. rewrite <- app_assoc. reflexivity.
Qed.

Lemma verified_call_forwards_once_witness :
  resolve_field "updated_at" (update_by_key_scope post_table) sample_build sample_exec
    (sample_args sample_input_100) (db_answering [[("ok", JBool true)]]) []
  = (sample_exec (sample_args sample_input_100),
     [] ++ [EvQuery (fst (compile sample_query_100)) (snd (compile sample_query_100));
            EvResolve (sample_args sample_input_100)]).
Proof.
  apply (verified_call_forwards_once "updated_at" (update_by_key_scope post_table)
           sample_build sample_exec (sample_args sample_input_100)
           (db_answering [[("ok", JBool true)]]) [] post_table updated_at_attr
           sample_query_100 [[("ok", JBool true)]]);
    reflexivity.
Defined.

(** *** The tolerance window *)

(** C6: the query built for a call selects, as its [ok] column, an expression
    that on every stored row with version [s] is true exactly when the client
    value [v] satisfies [s - 5us <= v <= s + 5us], and false otherwise. *)
Theorem ok_column_symmetric_window sc b inp ta q v row s :
  getVerifyTimestampSqlQuery sc b inp ta = Ok q ->
  input_get inp (inflection_column b ta) = GTimestamp v ->
  prop PNull (attr_name ta) row = PTimestamp s ->
  exists lm tbl cond,
    q = verify_query lm (attr_name ta) tbl cond /\
    eval_expr row (ok_expr lm (attr_name ta))
    = PBool ((s - 5 <=? v) && (v <=? s + 5)) /\
    (eval_expr row (ok_expr lm (attr_name ta)) = PBool true <-> s - 5 <= v <= s + 5).
Proof.
  intros Hq Hv Hs.
  destruct (getVerifyTimestampSqlQuery_shape _ _ _ _ _ Hq) as (cond & tbl & _ & _ & ->).
  rewrite Hv. do 3 eexists. split; [reflexivity|].
  rewrite (eval_ok_expr _ _ _ s) by exact Hs. split; [reflexivity|].
  split.
  - intros H. injection H as H. apply andb_true_iff in H as [H1 H2].
    apply Z.leb_le in H1. apply Z.leb_le in H2. lia.
  - intros [H1 H2]. apply Z.leb_le in H1. apply Z.leb_le in H2.
    rewrite H1, H2. reflexivity.
Qed.

Lemma ok_column_symmetric_window_witness :
  exists lm tbl cond,
    sample_query_100 = verify_query lm "updated_at" tbl cond /\
    eval_expr stored_row_200 (ok_expr lm "updated_at")
    = PBool ((200 - 5 <=? 100) && (100 <=? 200 + 5)) /\
    (eval_expr stored_row_200 (ok_expr lm "updated_at") = PBool true
     <-> 200 - 5 <= 100 <= 200 + 5).
Proof.
  apply (ok_column_symmetric_window (update_by_key_scope post_table) sample_build
           sample_input_100 updated_at_attr sample_query_100 100 stored_row_200 200);
    reflexivity.
Defined.

(** *** Opting out *)

(** C7: on a table carrying the [disableSafeUpdateAndDelete] tag, whether or
    not it has the version column, the input-type hook returns the fields it
    is given and the resolution of any mutation field of the table is the
    plain executor call on the original arguments, with no query. *)
Theorem opted_out_table_untouched col b t :
  truthy (prop JUndefined "disableSafeUpdateAndDelete" (tags t)) = true ->
  (forall sc flds,
     pgIntrospection sc = Some t ->
     pgFieldIntrospection sc = None \/ pgFieldIntrospection sc = Some t ->
     AddTimestampFieldHook col b sc flds = Ok flds) /\
  (forall sc exec orig db tr,
     pgFieldIntrospection sc = Some t ->
     resolve_field col sc b exec orig db tr = (exec orig, tr ++ [EvResolve orig])).
Proof.
  intros Htag. split.
  - intros sc flds Hpi Hpf.
    assert (Homit : omit sc = Ok true).
    { unfold omit. destruct Hpf as [Hpf|Hpf]; rewrite Hpf;
        [rewrite Hpi|]; simpl; rewrite Htag; reflexivity. }
    unfold AddTimestampFieldHook. rewrite Hpi. cbn [rbind deref].
    destruct (isPgUpdateInputType sc), (isPgDeleteInputType sc);
      cbn [rbind]; rewrite ?Homit; reflexivity.
  - intros sc exec orig db tr Hpf. apply resolve_field_unwrapped.
    unfold verify_filter. destruct (isRelevantMutation sc); [|reflexivity].
    rewrite (omit_field_table _ t Hpf), Htag. reflexivity.
Qed.

Lemma opted_out_table_untouched_witness :
  (AddTimestampFieldHook "updated_at" sample_build (update_input_scope post_table_opted_out) []
   = Ok []) /\
  (resolve_field "updated_at" (update_by_key_scope post_table_opted_out) sample_build
     sample_exec (sample_args sample_input_100) (db_answering []) []
   = (sample_exec (sample_args sample_input_100),
      [] ++ [EvResolve (sample_args sample_input_100)])).
Proof.
  destruct (opted_out_table_untouched "updated_at" sample_build post_table_opted_out
              eq_refl) as [Hhook Hres].
  split.
  - apply Hhook; [reflexivity | left; reflexivity].
  - apply Hres. reflexivity.
Defined.

(** *** Tables without the version column *)

(** C8: on a table with no attribute named [col], the input-type hook returns
    the fields it is given and the resolution of its mutation fields is the
    plain executor call on the original arguments, with no query. *)
Theorem no_version_column_untouched col b t :
  find_timestamp_attribute col (attributes t) = None ->
  (forall sc flds,
     pgIntrospection sc = Some t ->
     AddTimestampFieldHook col b sc flds = Ok flds) /\
  (forall sc exec orig db tr,
     pgFieldIntrospection sc = Some t ->
     resolve_field col sc b exec orig db tr = (exec orig, tr ++ [EvResolve orig])).
Proof.
  intros Hnone. split.
  - intros sc flds Hpi.
    assert (Homit : exists o, omit sc = Ok o).
    { unfold omit. destruct (pgFieldIntrospection sc); [|rewrite Hpi]; simpl; eauto. }
    destruct Homit as [o Homit].
    unfold AddTimestampFieldHook. rewrite Hpi. cbn [rbind deref attributes].
    destruct (isPgUpdateInputType sc), (isPgDeleteInputType sc);
      cbn [rbind]; rewrite ?Homit; cbn [rbind];
      destruct o; rewrite ?Hnone; reflexivity.
  - intros sc exec orig db tr Hpf. unfold resolve_field.
    destruct (verify_filter sc) as [[sc'|]|e] eqn:Hf.
    + unfold verify_filter in Hf. destruct (isRelevantMutation sc); [|discriminate].
      destruct (omit sc) as [[|]|]; simpl in Hf; try discriminate.
      injection Hf as <-.
      rewrite (verify_wrapper_unchecked _ _ _ _ _ _ _ t Hpf Hnone). reflexivity.
    + reflexivity.
    + unfold verify_filter in Hf. destruct (isRelevantMutation sc); [|discriminate].
      rewrite (omit_field_table _ t Hpf) in Hf. discriminate.
Qed.

Definition plain_table : table :=
  mkTable "tag" "app" (mkPgType 90002 "app" "tag") [id_attr]
    (Some (mkConstraint [id_attr])) [].

Lemma no_version_column_untouched_witness :
  (AddTimestampFieldHook "updated_at" sample_build (update_input_scope plain_table) []
   = Ok []) /\
  (resolve_field "updated_at" (update_by_key_scope plain_table) sample_build
     sample_exec (sample_args sample_input_100) (db_answering []) []
   = (sample_exec (sample_args sample_input_100),
      [] ++ [EvResolve (sample_args sample_input_100)])).
Proof.
  destruct (no_version_column_untouched "updated_at" sample_build plain_table eq_refl)
    as [Hhook Hres].
  split; [apply Hhook | apply Hres]; reflexivity.
Defined.

(** *** The added input field *)

Definition plain_field (ty : string) : field_spec := mkFieldSpec (GNamedType ty) "".

(** A table keyed by [(id, updated_at)]: its update-by-key input already has
    an [updatedAt] field. *)
Definition post_versioned_key_table : table :=
  mkTable "post" "app" post_type [id_attr; updated_at_attr]
    (Some (mkConstraint [id_attr; updated_at_attr])) [].

Definition update_post_by_id_and_updated_at_input : fields :=
  [("clientMutationId", plain_field "String");
   ("postPatch", mkFieldSpec (GNonNull (GNamedType "PostPatch")) "");
   ("id", mkFieldSpec (GNonNull (GNamedType "Int")) "");
   ("updatedAt", mkFieldSpec (GNonNull (GNamedType "Datetime")) "")].

(** C9 (counterexample): when the input type already has a field named like
    the version column, the hook does not return the fields plus one: the
    host's [extend] refuses the addition and the hook throws. *)
Lemma existing_field_name_rejected :
  AddTimestampFieldHook "updated_at" sample_build
    (update_input_scope post_versioned_key_table) update_post_by_id_and_updated_at_input
  = Throw (Error "Overwriting key 'updatedAt' is not allowed!").
Proof. vm_compute. reflexivity. Qed.

(** C9 (amended): for an update- or delete-input type of a non-opted-out table
    with the version column, when no field of the fragment already has the
    name [inflection.column] gives the version column, the result is the
    fields followed by exactly one new field of that name, of type
    [Datetime!], described as the value of the existing row to be updated
    (resp. deleted); an input type of any other classification (with its table
    introspection in scope) is returned unchanged. *)
Theorem version_field_added b col sc t flds :
  pgIntrospection sc = Some t ->
  (forall ta,
     isPgUpdateInputType sc || isPgDeleteInputType sc = true ->
     omit sc = Ok false ->
     find_timestamp_attribute col (attributes t) = Some ta ->
     existsb (fun kv => String.eqb (fst kv) (inflection_column b ta)) flds = false ->
     AddTimestampFieldHook col b sc flds
     = Ok (flds ++ [(inflection_column b ta,
                     mkFieldSpec (GNonNull (GNamedType "Datetime"))
                       (timestamp_description (inflection_column b ta)
                          (if isPgUpdateInputType sc then "update" else "delete")))])) /\
  (isPgUpdateInputType sc = false ->
   isPgDeleteInputType sc = false ->
   AddTimestampFieldHook col b sc flds = Ok flds).
Proof.
  intros Hpi. split.
  - intros ta Hcls Homit Hta Hfresh.
    unfold AddTimestampFieldHook. rewrite Hpi. cbn [rbind deref].
    destruct (isPgUpdateInputType sc), (isPgDeleteInputType sc);
      try discriminate Hcls;
      cbn [rbind]; rewrite Homit; cbn [rbind]; rewrite Hta;
      unfold extend; rewrite Hfresh; reflexivity.
  - intros Hu Hd. unfold AddTimestampFieldHook. rewrite Hpi, Hu, Hd. reflexivity.
Qed.

Lemma version_field_added_witness :
  (AddTimestampFieldHook "updated_at" sample_build (update_input_scope post_table)
     [("clientMutationId", plain_field "String")]
   = Ok ([("clientMutationId", plain_field "String")] ++
         [(inflection_column sample_build updated_at_attr,
           mkFieldSpec (GNonNull (GNamedType "Datetime"))
             (timestamp_description (inflection_column sample_build updated_at_attr)
                (if isPgUpdateInputType (update_input_scope post_table)
                 then "update" else "delete")))])) /\
  (AddTimestampFieldHook "updated_at" sample_build
     (mkScope false false false false false false None (Some post_table) None)
     [("clientMutationId", plain_field "String")]
   = Ok [("clientMutationId", plain_field "String")]).
Proof.
  split.
  - apply (proj1 (version_field_added sample_build "updated_at"
                    (update_input_scope post_table) post_table
                    [("clientMutationId", plain_field "String")] eq_refl)
             updated_at_attr); reflexivity.
  - apply (proj2 (version_field_added sample_build "updated_at"
                    (mkScope false false false false false false None (Some post_table) None)
                    post_table [("clientMutationId", plain_field "String")] eq_refl));
      reflexivity.
Defined.

(** *** Node mode on a table without a primary key *)

(** C10 (counterexample): on a table without a primary key, a node identifier
    of another type fails with "Mismatched type", not with a raw type error. *)
Lemma no_pk_wrong_type_reports_type :
  fst (resolve_field "updated_at" (update_by_node_scope post_table_no_pk) sample_build
         sample_exec (sample_args (node_input "user:1")) (db_answering []) [])
  = Throw (Error "Mismatched type").
Proof. vm_compute. reflexivity. Qed.

(** C10 (amended): in node mode on a guarded table with the version column and
    no primary-key constraint, an identifier whose decoded type matches the
    table's type makes the call fail with a raw [TypeError] (the length of the
    undefined key list is read), and one whose type differs fails with
    "Mismatched type"; in both cases before any query and without invoking the
    executor. *)
Theorem no_pk_node_mutation_type_error col sc b exec orig db tr t ta Ty ids :
  isRelevantMutation sc = true ->
  omit sc = Ok false ->
  isPgNodeMutation sc = true ->
  pgFieldIntrospection sc = Some t ->
  find_timestamp_attribute col (attributes t) = Some ta ->
  primaryKeyConstraint t = None ->
  getTypeAndIdentifiersFromNodeId b (input_get (ca_input orig) (nodeIdFieldName b))
    = (Ty, ids) ->
  (Ty = pgGetGqlTypeByTypeIdAndModifier b (type_id (tbl_type t)) ->
   resolve_field col sc b exec orig db tr
   = (Throw (TypeError "Cannot read properties of undefined"), tr)) /\
  (Ty <> pgGetGqlTypeByTypeIdAndModifier b (type_id (tbl_type t)) ->
   resolve_field col sc b exec orig db tr = (Throw (Error "Mismatched type"), tr)).
Proof.
  intros Hrel Homit Hnode Ht Hta Hpk Hdec. split.
  - intros Heq. eapply resolve_field_condition_error; eauto.
    unfold mutation_condition. rewrite Hnode.
    eapply node_condition_no_pk; eauto.
  - intros Hne. eapply resolve_field_condition_error; eauto.
    unfold mutation_condition. rewrite Hnode.
    eapply node_condition_mismatch; eauto.
Qed.

Lemma no_pk_node_mutation_type_error_witness :
  (resolve_field "updated_at" (update_by_node_scope post_table_no_pk) sample_build
     sample_exec (sample_args (node_input "post:1")) (db_answering []) []
   = (Throw (TypeError "Cannot read properties of undefined"), [])) /\
  (resolve_field "updated_at" (update_by_node_scope post_table_no_pk) sample_build
     sample_exec (sample_args (node_input "user:1")) (db_answering []) []
   = (Throw (Error "Mismatched type"), [])).
Proof.
  split.
  - refine (proj1 (no_pk_node_mutation_type_error "updated_at"
             (update_by_node_scope post_table_no_pk) sample_build sample_exec
             (sample_args (node_input "post:1")) (db_answering []) [] post_table_no_pk
             updated_at_attr "Post" [GInt 1] _ _ _ _ _ _ _) _);
      reflexivity.
  - refine (proj2 (no_pk_node_mutation_type_error "updated_at"
             (update_by_node_scope post_table_no_pk) sample_build sample_exec
             (sample_args (node_input "user:1")) (db_answering []) [] post_table_no_pk
             updated_at_attr "User" [GInt 1] _ _ _ _ _ _ _) _);
      try reflexivity.
    discriminate.
Defined.

(** ** Further properties of the plugin *)

(** *** Bound parameters *)






Lemma values_of_key_equals key v : values_of (key_equals key v) = [v].
Proof. reflexivity. Qed.







(** *** Which fields are wrapped *)



(** *** Shape of every run *)

(** X5: every resolution of a mutation field sends at most one query and
    invokes the executor at most once, after the query when there is one,
    always with the original arguments; when the executor runs its result is
    the call's result, and when it does not the call fails. *)
Theorem resolve_field_run_shape col sc b exec orig db tr :
  let (r, tr') := resolve_field col sc b exec orig db tr in
  (tr' = tr /\ exists e, r = Throw e) \/
  (exists s vs e, tr' = tr ++ [EvQuery s vs] /\ r = Throw e) \/
  (tr' = tr ++ [EvResolve orig] /\ r = exec orig) \/
  (exists s vs, tr' = tr ++ [EvQuery s vs; EvResolve orig] /\ r = exec orig).
Proof.
  unfold resolve_field.
  destruct (verify_filter sc) as [[sc'|]|e].
  - unfold verify_wrapper, mbind, mlift.
    destruct (deref (pgFieldIntrospection sc')) as [t|e];
      cbv beta iota; [|left; eauto].
    destruct (find_timestamp_attribute col (attributes t)) as [ta|].
    + rewrite verifyTimestamp_unfold.
      destruct (getVerifyTimestampSqlQuery sc' b (ca_input orig) ta) as [q|e];
        cbv beta iota; [|left; eauto].
      destruct (db (compile q)) as [rows|e]; cbv beta iota; [|right; left; eauto].
      destruct (forallb row_ok rows); cbv beta iota; [|right; left; eauto].
      do 3 right. unfold host_resolver, call_executor. rewrite <- app_assoc.
      do 2 eexists. split; reflexivity.
    + right; right; left. unfold host_resolver, call_executor. auto.
  - right; right; left. unfold call_executor. auto.
  - left. unfold mlift. eauto.
Qed.

(** *** The decision rule *)

Lemma row_ok_locked_read r v ty tm col :
  row_ok [("ok", pg_to_js (eval_expr r (ok_expr (gql2pg_expr (GTimestamp v) ty tm) col)))]
  = row_within v col r.
Proof.
  unfold row_within. destruct (prop PNull col r) eqn:Hc.
  all: try (unfold row_ok; cbn [ok_expr gql2pg_expr eval_expr]; rewrite Hc; reflexivity).
  rewrite (eval_ok_expr _ _ _ us) by exact Hc. unfold row_ok. simpl.
  destruct ((us - 5 <=? v) && (v <=? us + 5)); reflexivity.
Qed.

Lemma forallb_locked_read v ty tm col matched :
  forallb row_ok (locked_read_rows (gql2pg_expr (GTimestamp v) ty tm) col matched)
  = forallb (row_within v col) matched.
Proof.
  unfold locked_read_rows in *. induction matched as [|r matched IH]; [reflexivity|].
  cbn [map forallb]. rewrite IH, row_ok_locked_read. reflexivity.
Qed.

(** X6: on a guarded table with the version column, the call goes through
    exactly when every stored row the condition matches has a version within
    5 microseconds of the client value; a row whose version is NULL blocks
    it, and no matched row lets it through. *)
Theorem verification_decision col sc b exec orig t ta q v matched tr :
  isRelevantMutation sc = true ->
  omit sc = Ok false ->
  pgFieldIntrospection sc = Some t ->
  find_timestamp_attribute col (attributes t) = Some ta ->
  getVerifyTimestampSqlQuery sc b (ca_input orig) ta = Ok q ->
  input_get (ca_input orig) (inflection_column b ta) = GTimestamp v ->
  resolve_field col sc b exec orig
    (fun _ => Ok (locked_read_rows
                    (gql2pg_expr (GTimestamp v) (attr_type ta) (attr_typeModifier ta))
                    (attr_name ta) matched)) tr
  = if forallb (row_within v (attr_name ta)) matched
    then (exec orig, tr ++ [EvQuery (fst (compile q)) (snd (compile q)); EvResolve orig])
    else (Throw (Error "Mutation blocked due to conflict."),
          tr ++ [EvQuery (fst (compile q)) (snd (compile q))]).
Proof.
  intros Hrel Homit Ht Hta Hq Hv.
  rewrite resolve_field_wrapped by assumption.
  rewrite (verify_wrapper_checked _ _ _ _ _ _ _ t ta) by assumption.
  unfold mbind. rewrite verifyTimestamp_unfold, Hq, forallb_locked_read.
  destruct (forallb (row_within v (attr_name ta)) matched); [|reflexivity].
  unfold host_resolver, call_executor. rewrite <- app_assoc. reflexivity.
Qed.

Definition stored_row_null : sql_row := [("id", PInt 1); ("updated_at", PNull)].
Definition stored_row_103 : sql_row := [("id", PInt 1); ("updated_at", PTimestamp 103)].

Lemma verification_decision_witness :
  resolve_field "updated_at" (update_by_key_scope post_table) sample_build sample_exec
    (sample_args sample_input_100)
    (fun _ => Ok (locked_read_rows (gql2pg_expr (GTimestamp 100) timestamptz (-1))
                   "updated_at" [stored_row_103; stored_row_null])) []
  = if forallb (row_within 100 "updated_at") [stored_row_103; stored_row_null]
    then (sample_exec (sample_args sample_input_100),
          [] ++ [EvQuery (fst (compile sample_query_100)) (snd (compile sample_query_100));
                 EvResolve (sample_args sample_input_100)])
    else (Throw (Error "Mutation blocked due to conflict."),
          [] ++ [EvQuery (fst (compile sample_query_100)) (snd (compile sample_query_100))]).
Proof.
  apply (verification_decision "updated_at" (update_by_key_scope post_table) sample_build
           sample_exec (sample_args sample_input_100) post_table updated_at_attr
           sample_query_100 100 [stored_row_103; stored_row_null] []);
    reflexivity.
Defined.

(** *** Database failures *)

(** X7: when the verification query itself fails (connection error, lock
    timeout, ...), that error is the call's result, unchanged, and the
    executor is never invoked. *)
Theorem query_failure_propagates col sc b exec orig db tr t ta q e :
  isRelevantMutation sc = true ->
  omit sc = Ok false ->
  pgFieldIntrospection sc = Some t ->
  find_timestamp_attribute col (attributes t) = Some ta ->
  getVerifyTimestampSqlQuery sc b (ca_input orig) ta = Ok q ->
  db (compile q) = Throw e ->
  resolve_field col sc b exec orig db tr
  = (Throw e, tr ++ [EvQuery (fst (compile q)) (snd (compile q))]).
Proof.
  intros Hrel Homit Ht Hta Hq Hdb.
  rewrite resolve_field_wrapped by assumption.
  rewrite (verify_wrapper_checked _ _ _ _ _ _ _ t ta) by assumption.
  unfold mbind. rewrite verifyTimestamp_unfold, Hq, Hdb. reflexivity.
Qed.

Lemma query_failure_propagates_witness :
  resolve_field "updated_at" (update_by_key_scope post_table) sample_build sample_exec
    (sample_args sample_input_100) (fun _ => Throw (HostError 57014)) []
  = (Throw (HostError 57014),
     [] ++ [EvQuery (fst (compile sample_query_100)) (snd (compile sample_query_100))]).
Proof.
  apply (query_failure_propagates "updated_at" (update_by_key_scope post_table)
           sample_build sample_exec (sample_args sample_input_100)
           (fun _ => Throw (HostError 57014)) [] post_table updated_at_attr
           sample_query_100 (HostError 57014));
    reflexivity.
Defined.

(** *** The input-type hook only appends *)

(** X8: whenever the input-type hook succeeds, its result is the fields it
    was given, unchanged and in order, followed by at most one new field; on
    an input type without table introspection in scope it throws a
    [TypeError], whatever its classification. *)
Theorem hook_only_appends col b sc flds :
  (forall fs, AddTimestampFieldHook col b sc flds = Ok fs ->
     exists extra, fs = flds ++ extra /\ length extra <= 1)%nat /\
  (pgIntrospection sc = None ->
     exists e, AddTimestampFieldHook col b sc flds = Throw (TypeError e)).
Proof.
  split.
  - intros fs. unfold AddTimestampFieldHook.
    destruct (pgIntrospection sc) as [t|]; cbn [rbind deref]; [|discriminate].
    assert (Hkeep : Ok flds = Ok fs -> exists extra, fs = flds ++ extra /\ (length extra <= 1)%nat).
    { intros H. injection H as <-. exists []. rewrite app_nil_r. split; [reflexivity|]. simpl. lia. }
    assert (Hbranch : forall mode,
      (o <- omit sc ;;
       (if o then Ok flds else
        match find_timestamp_attribute col (attributes t) with
        | None => Ok flds
        | Some timestampAttribute =>
            extend flds (inflection_column b timestampAttribute)
              (mkFieldSpec (GNonNull (GNamedType "Datetime"))
                 (timestamp_description (inflection_column b timestampAttribute) mode))
        end)) = Ok fs ->
      exists extra, fs = flds ++ extra /\ (length extra <= 1)%nat).
    { intros mode. destruct (omit sc) as [[|]|e]; cbn [rbind]; [exact Hkeep| |discriminate].
      destruct (find_timestamp_attribute col (attributes t)); [|exact Hkeep].
      unfold extend. destruct (existsb _ flds); [discriminate|].
      intros H. injection H as <-. eexists. split; [reflexivity|]. simpl. lia. }
    destruct (isPgUpdateInputType sc); [apply Hbranch|].
    destruct (isPgDeleteInputType sc); [apply Hbranch|exact Hkeep].
  - intros H. unfold AddTimestampFieldHook. rewrite H. simpl. eauto.
Qed.

Lemma hook_only_appends_witness :
  exists e,
    AddTimestampFieldHook "updated_at" sample_build
      (mkScope false false false false false false None None None)
      [("clientMutationId", plain_field "String")] = Throw (TypeError e).
Proof.
  apply (proj2 (hook_only_appends "updated_at" sample_build
                  (mkScope false false false false false false None None None)
                  [("clientMutationId", plain_field "String")])).
  reflexivity.
Defined.
